(** * Progress callback plugin (ansible/callback_plugins/progress.py)

    A shallow embedding of the [CallbackModule] class: its run state, the
    task categorizer, the name simplifier and the lines it writes to
    [sys.stdout], followed by the properties of the renderer.

    Python [str] values are sequences of Unicode code points; dictionaries
    that are iterated in insertion order are association lists; the
    [result._result] dictionary, which is only read by key, is a [gmap]. *)

From Stdlib Require Import ZArith NArith Lia Ascii String.
From stdpp Require Import base option list gmap.

Local Open Scope Z_scope.

(* ===================================================================== *)
(** ** Python strings *)
(* ===================================================================== *)

Module PyStr.

(** A [str] is the list of its code points, so that [len] counts
    characters the way Python does. *)
Definition char : Type := N.
Abbreviation str := (list N).

Definition CR : char := 13%N.
Definition LF : char := 10%N.

(** Source literals are written as in the Python file and decoded from
    their UTF-8 bytes to code points. *)
Fixpoint utf8_decode (bs : list N) : str :=
  match bs with
  | [] => []
  | b0 :: r0 =>
      if (b0 <? 128)%N then b0 :: utf8_decode r0
      else if (b0 <? 224)%N then
        match r0 with
        | b1 :: r1 => ((b0 - 192) * 64 + (b1 - 128))%N :: utf8_decode r1
        | _ => []
        end
      else if (b0 <? 240)%N then
        match r0 with
        | b1 :: b2 :: r2 =>
            ((b0 - 224) * 4096 + (b1 - 128) * 64 + (b2 - 128))%N
              :: utf8_decode r2
        | _ => []
        end
      else
        match r0 with
        | b1 :: b2 :: b3 :: r3 =>
            ((b0 - 240) * 262144 + (b1 - 128) * 4096
             + (b2 - 128) * 64 + (b3 - 128))%N :: utf8_decode r3
        | _ => []
        end
  end.

Definition u (s : string) : str :=
  utf8_decode (map N_of_ascii (list_ascii_of_string s)).

(** [len(s)] *)
Definition len (s : str) : Z := Z.of_nat (length s).

(** Truth value of a string: the empty string is false. *)
Definition str_truthy (s : str) : bool :=
  match s with [] => false | _ :: _ => true end.

(** [s.startswith(prefix)] *)
Fixpoint startswith (s prefix : str) {struct prefix} : bool :=
  match prefix with
  | [] => true
  | p :: prefix' =>
      match s with
      | [] => false
      | c :: s' => (c =? p)%N && startswith s' prefix'
      end
  end.

(** [s.endswith(suffix)] *)
Definition endswith (s suffix : str) : bool :=
  startswith (rev s) (rev suffix).

(** [needle in hay] *)
Fixpoint str_in (needle hay : str) : bool :=
  startswith hay needle
  || match hay with
     | [] => false
     | _ :: hay' => str_in needle hay'
     end.

(** An index of a slice, brought into [0, n]: a negative index counts
    from the end, and both ends are clamped. *)
Definition slice_index (n i : Z) : Z :=
  let i' := if i <? 0 then i + n else i in
  Z.max 0 (Z.min n i').

(** [s[start:stop]] *)
Definition slice (s : str) (start stop : Z) : str :=
  let a := slice_index (len s) start in
  let b := slice_index (len s) stop in
  take (Z.to_nat (b - a)) (drop (Z.to_nat a) s).

(** [s[start:]] *)
Definition slice_from (s : str) (start : Z) : str :=
  drop (Z.to_nat (slice_index (len s) start)) s.

(** [s * n]: no copies at all when [n] is zero or negative. *)
Definition str_mul (s : str) (n : Z) : str :=
  concat (replicate (Z.to_nat n) s).

(** [str.lower] on the ASCII range, where it maps [A-Z] to [a-z] one
    character at a time.  It instantiates the [lower] parameter of the
    model when a handler is evaluated on an ASCII name. *)
Definition ascii_lower_char (c : char) : char :=
  if ((65 <=? c) && (c <=? 90))%N then (c + 32)%N else c.

Definition ascii_lower (s : str) : str := map ascii_lower_char s.

End PyStr.

Import PyStr.
Arguments u : simpl never.

(* ===================================================================== *)
(** ** Values carried by a task result, and the output stream *)
(* ===================================================================== *)

(** The values that the handlers read out of [result._result]. *)
Inductive pyval : Type :=
| PyNone
| PyBool (b : bool)
| PyStr (s : str).

(** Truth value of an object, as tested by [if]. *)
Definition truthy (v : pyval) : bool :=
  match v with
  | PyNone => false
  | PyBool b => b
  | PyStr s => str_truthy s
  end.

(** Truth value of an attribute that holds [None] or a string. *)
Definition opt_truthy (o : option str) : bool :=
  match o with
  | None => false
  | Some s => str_truthy s
  end.

(** What an f-string substitutes for [{v}]. *)
Definition format (v : pyval) : str :=
  match v with
  | PyNone => u "None"
  | PyBool true => u "True"
  | PyBool false => u "False"
  | PyStr s => s
  end.

(** [d.get(key, default)] *)
Definition dict_get (d : gmap str pyval) (key : str) (default : pyval) : pyval :=
  match d !! key with
  | Some v => v
  | None => default
  end.

(** The two operations the plugin performs on [sys.stdout]. *)
Inductive io : Type :=
| Write (s : str)
| Flush.

(* ===================================================================== *)
(** ** The callback module *)
(* ===================================================================== *)

(** The attributes set by [__init__]. *)
Record CallbackModule : Type := {
  task_status : gmap str pyval;
  current_task : option str;
  current_play : option str;
  task_count : Z;
  total_tasks : Z;
  system_tasks : list str;
  dev_tools_tasks : list str;
  final_setup_tasks : list str;
  task_categories : list (str * list str)
}.

Definition set_current_play (self : CallbackModule) (v : option str) : CallbackModule :=
  {| task_status := task_status self;
     current_task := current_task self;
     current_play := v;
     task_count := task_count self;
     total_tasks := total_tasks self;
     system_tasks := system_tasks self;
     dev_tools_tasks := dev_tools_tasks self;
     final_setup_tasks := final_setup_tasks self;
     task_categories := task_categories self |}.

Definition set_current_task (self : CallbackModule) (v : option str) : CallbackModule :=
  {| task_status := task_status self;
     current_task := v;
     current_play := current_play self;
     task_count := task_count self;
     total_tasks := total_tasks self;
     system_tasks := system_tasks self;
     dev_tools_tasks := dev_tools_tasks self;
     final_setup_tasks := final_setup_tasks self;
     task_categories := task_categories self |}.

(** The category table of [__init__], in declaration order. *)
Definition init_task_categories : list (str * list str) :=
  [ (u "System Configuration",
      [ u "Set hostname";
        u "Update /etc/hosts";
        u "Generate en_US.UTF-8 locale";
        u "Set system locale";
        u "Set system timezone";
        u "Update apt cache";
        u "Install locale packages";
        u "Install base system packages" ]);
    (u "Development Tools",
      [ u "Install NVM";
        u "Install Node.js";
        u "Update npm";
        u "Enable corepack";
        u "Install pnpm";
        u "Install global npm packages";
        u "Install additional APT packages";
        u "Install Rust";
        u "Install cargo packages";
        u "Install pyenv" ]);
    (u "Final Setup",
      [ u "Change.*shell";
        u "Generate .zshrc";
        u "shell configuration";
        u "permissions" ]) ].

Definition __init__ : CallbackModule :=
  {| task_status := ∅;
     current_task := None;
     current_play := None;
     task_count := 0;
     total_tasks := 0;
     system_tasks := [];
     dev_tools_tasks := [];
     final_setup_tasks := [];
     task_categories := init_task_categories |}.

(** The prefix table of [_simplify_task_name], in declaration order. *)
Definition simplifications : list (str * str) :=
  [ (u "Install ", u "");
    (u "Set ", u "");
    (u "Update ", u "");
    (u "Enable ", u "");
    (u "Generate ", u "");
    (u "Download ", u "");
    (u "Change ", u "") ].

(** The first loop of [_simplify_task_name]: the first prefix the name
    starts with is cut off and the loop is left. *)
Fixpoint strip_prefix (table : list (str * str)) (simple_name : str) : str :=
  match table with
  | [] => simple_name
  | (prefix, replacement) :: table' =>
      if startswith simple_name prefix
      then slice_from simple_name (len prefix)
      else strip_prefix table' simple_name
  end.

Definition _simplify_task_name (task_name : str) : str :=
  let simple_name := strip_prefix simplifications task_name in
  if str_in (u "base system packages") simple_name then
    u "Base packages (25)"
  else if str_in (u "global npm packages") simple_name then
    u "Global packages (5)"
  else if str_in (u "additional APT packages") simple_name then
    u "Additional packages"
  else simple_name.

Section Handlers.

(** [str.lower], which the categorizer applies to both sides of every
    comparison. *)
Variable lower : str -> str.

(** The test of the inner loop of [_categorize_task]. *)
Definition pattern_matches (pattern task_name : str) : bool :=
  str_in (lower pattern) (lower task_name)
  || (startswith pattern (u ".*") && endswith pattern (u ".*")
      && str_in (lower (slice pattern 2 (-2))) (lower task_name)).

(** The two nested loops: the category of the first pattern that
    matches is returned at once. *)
Fixpoint categorize_patterns (category : str) (patterns : list str)
    (task_name : str) : option str :=
  match patterns with
  | [] => None
  | pattern :: patterns' =>
      if pattern_matches pattern task_name then Some category
      else categorize_patterns category patterns' task_name
  end.

Fixpoint categorize_items (items : list (str * list str)) (task_name : str)
    : option str :=
  match items with
  | [] => None
  | (category, patterns) :: items' =>
      match categorize_patterns category patterns task_name with
      | Some c => Some c
      | None => categorize_items items' task_name
      end
  end.

Definition _categorize_task (self : CallbackModule) (task_name : str)
    : option str :=
  categorize_items (task_categories self) task_name.

Definition v2_playbook_on_play_start (self : CallbackModule) (play_name : str)
    : CallbackModule * list io :=
  (set_current_play self (Some play_name), []).

Definition v2_playbook_on_task_start (self : CallbackModule) (task_name : str)
    (is_conditional : bool) : CallbackModule * list io :=
  let self := set_current_task self (Some task_name) in
  if startswith task_name (u "Gathering Facts") || negb (str_truthy task_name)
  then (self, [])
  else
    let category := _categorize_task self task_name in
    if opt_truthy category then (self, [])
    else (self, [Write (u "   ├─ " ++ task_name ++ u " "); Flush]).

Definition v2_runner_on_ok (self : CallbackModule) (result : gmap str pyval)
    : CallbackModule * list io :=
  match current_task self with
  | Some task_name =>
      if str_truthy task_name && negb (startswith task_name (u "Gathering Facts"))
      then
        let changed := dict_get result (u "changed") (PyBool false) in
        let status := if truthy changed then u "✓" else u "✓" in
        let category := _categorize_task self task_name in
        if opt_truthy category then
          let simple_name := _simplify_task_name task_name in
          (self,
           [Write ([CR] ++ u "   │  ├─ " ++ simple_name ++ u " "
                   ++ str_mul (u ".") (35 - len simple_name)
                   ++ u " ✓" ++ [LF]);
            Flush])
        else
          (self,
           [Write ([CR] ++ u "   ├─ " ++ task_name ++ u " "
                   ++ str_mul (u ".") (50 - len task_name)
                   ++ u " ✓" ++ [LF]);
            Flush])
      else (self, [])
  | None => (self, [])
  end.

Definition v2_runner_on_failed (self : CallbackModule)
    (result : gmap str pyval) (ignore_errors : bool)
    : CallbackModule * list io :=
  match current_task self with
  | Some task_name =>
      if str_truthy task_name && negb ignore_errors then
        (self,
         [Write ([CR] ++ u "   ├─ " ++ task_name ++ u " "
                 ++ str_mul (u ".") (50 - len task_name)
                 ++ u " ✗" ++ [LF]);
          Write (u "   │  └─ Error: "
                 ++ format (dict_get result (u "msg") (PyStr (u "Unknown error")))
                 ++ [LF]);
          Flush])
      else (self, [])
  | None => (self, [])
  end.

Definition v2_runner_on_skipped (self : CallbackModule)
    (result : gmap str pyval) : CallbackModule * list io :=
  (self, []).

Definition v2_playbook_on_stats (self : CallbackModule)
    : CallbackModule * list io :=
  (self, []).

Definition display (self : CallbackModule) (msg : str)
    : CallbackModule * list io :=
  (self, []).

(** The calls the engine makes on the plugin. *)
Inductive event : Type :=
| PlayStart (play_name : str)
| TaskStart (task_name : str) (is_conditional : bool)
| RunnerOk (result : gmap str pyval)
| RunnerFailed (result : gmap str pyval) (ignore_errors : bool)
| RunnerSkipped (result : gmap str pyval)
| Stats
| Display (msg : str).

Definition handle (self : CallbackModule) (e : event)
    : CallbackModule * list io :=
  match e with
  | PlayStart play_name => v2_playbook_on_play_start self play_name
  | TaskStart task_name c => v2_playbook_on_task_start self task_name c
  | RunnerOk result => v2_runner_on_ok self result
  | RunnerFailed result ignore_errors =>
      v2_runner_on_failed self result ignore_errors
  | RunnerSkipped result => v2_runner_on_skipped self result
  | Stats => v2_playbook_on_stats self
  | Display msg => display self msg
  end.

(** The engine calls the handlers one at a time, in event order. *)
Fixpoint run (self : CallbackModule) (events : list event)
    : CallbackModule * list io :=
  match events with
  | [] => (self, [])
  | e :: events' =>
      let '(self', out) := handle self e in
      let '(self'', out') := run self' events' in
      (self'', out ++ out')
  end.

End Handlers.

(* ===================================================================== *)
(** ** The terminal behind [sys.stdout] *)
(* ===================================================================== *)

(** An idealised terminal of unbounded width: the lines already ended by
    a line feed, the line the cursor is on, and the cursor's column.  A
    carriage return moves the cursor to the first column; any other
    character is put in the cell under the cursor, over what was there. *)
Record terminal : Type := {
  finished : list str;
  line : str;
  column : nat
}.

Definition put (t : terminal) (c : char) : terminal :=
  if (c =? LF)%N then
    {| finished := finished t ++ [line t]; line := []; column := 0 |}
  else if (c =? CR)%N then
    {| finished := finished t; line := line t; column := 0 |}
  else
    {| finished := finished t;
       line := take (column t) (line t) ++ c :: drop (S (column t)) (line t);
       column := S (column t) |}.

Definition print (t : terminal) (s : str) : terminal := foldl put t s.

(** [sys.stdout]: written text waits in the buffer until a flush sends it
    to the terminal. *)
Record stream : Type := {
  buffer : str;
  tty : terminal
}.

Definition perform (o : stream) (a : io) : stream :=
  match a with
  | Write s => {| buffer := buffer o ++ s; tty := tty o |}
  | Flush => {| buffer := []; tty := print (tty o) (buffer o) |}
  end.

Definition perform_all (o : stream) (l : list io) : stream := foldl perform o l.

(** A stream whose buffer is empty and whose cursor is at the start of an
    empty line, below the lines [above]. *)
Definition at_line_start (above : list str) : stream :=
  {| buffer := []; tty := {| finished := above; line := []; column := 0 |} |}.

(** A character that occupies a cell: neither carriage return nor line
    feed. *)
Definition printable (c : char) : Prop := c ≠ CR ∧ c ≠ LF.

(* ===================================================================== *)
(** ** Vocabulary of the properties *)
(* ===================================================================== *)

(** [a] occurs in [b] as a contiguous run of characters. *)
Definition substring (a b : str) : Prop := ∃ l1 l2, b = l1 ++ a ++ l2.

(** [text] is a case-insensitive substring of [task_name]: containment
    after lowercasing both sides. *)
Definition ci_substring (lower : str → str) (text task_name : str) : Prop :=
  substring (lower text) (lower task_name).

(** A pattern that both starts and ends with the marker [.*], the only
    shape for which [_categorize_task] looks at an inner text. *)
Definition wildcard_shaped (pattern : str) : bool :=
  startswith pattern (u ".*") && endswith pattern (u ".*").

(** The fill character. *)
Definition dot : char := 46%N.

(** The number of fill dots for a name of length [L] and a width [W]. *)
Definition fill_count (W L : Z) : nat := Z.to_nat (Z.max (W - L) 0).

(** A name that task-start and runner-ok take for the engine's
    fact-gathering step. *)
Definition fact_gathering (task_name : str) : Prop :=
  u "Gathering Facts" `prefix_of` task_name.

(** The patterns of a table in scan order, each with its category. *)
Definition declared (table : list (str * list str)) : list (str * str) :=
  flat_map (λ item, map (pair (fst item)) (snd item)) table.

(** The name supplied by the last task-start event of a sequence. *)
Fixpoint last_task_start (events : list event) : option str :=
  match events with
  | [] => None
  | TaskStart task_name _ :: events' =>
      match last_task_start events' with
      | Some n => Some n
      | None => Some task_name
      end
  | _ :: events' => last_task_start events'
  end.


Definition set_task_categories (self : CallbackModule)
    (v : list (str * list str)) : CallbackModule :=
  {| task_status := task_status self;
     current_task := current_task self;
     current_play := current_play self;
     task_count := task_count self;
     total_tasks := total_tasks self;
     system_tasks := system_tasks self;
     dev_tools_tasks := dev_tools_tasks self;
     final_setup_tasks := final_setup_tasks self;
     task_categories := v |}.

(** Whether [a] and [b] agree as far as both go. *)
Fixpoint agree (a b : str) : bool :=
  match a, b with
  | x :: a', y :: b' => (x =? y)%N && agree a' b'
  | _, _ => true
  end.

(** No occurrence of [t] can begin inside [p] and run over its end. *)
Fixpoint no_overlap (p t : str) : bool :=
  match p with
  | [] => true
  | _ :: p' => negb (agree p t) && no_overlap p' t
  end.

(* ===================================================================== *)
(** ** Vocabulary of the report as a whole *)
(* ===================================================================== *)

(** The text that a trace sends to the stream, in order. *)
Fixpoint written (l : list io) : str :=
  match l with
  | [] => []
  | Write s :: l' => s ++ written l'
  | Flush :: l' => written l'
  end.

(** The events whose handlers never write: play-start, runner-skipped,
    stats and display. *)
Definition silent (e : event) : bool :=
  match e with
  | PlayStart _ | RunnerSkipped _ | Stats | Display _ => true
  | TaskStart _ _ | RunnerOk _ | RunnerFailed _ _ => false
  end.

(** The name supplied by the last play-start event of a sequence. *)
Fixpoint last_play_start (events : list event) : option str :=
  match events with
  | [] => None
  | PlayStart play_name :: events' =>
      match last_play_start events' with
      | Some n => Some n
      | None => Some play_name
      end
  | _ :: events' => last_play_start events'
  end.

(** A name for which task-start and runner-ok return at once. *)
Definition suppressed (task_name : str) : bool :=
  startswith task_name (u "Gathering Facts") || negb (str_truthy task_name).

(** The lines of the report as they stand on the terminal, without the
    carriage return and the line feed around them. *)
Definition top_line (task_name glyph : str) : str :=
  u "   ├─ " ++ task_name ++ u " "
  ++ replicate (fill_count 50 (len task_name)) dot ++ glyph.

Definition condensed_line (simple_name : str) : str :=
  u "   │  ├─ " ++ simple_name ++ u " "
  ++ replicate (fill_count 35 (len simple_name)) dot ++ u " ✓".


(** The lines that a task which starts and then succeeds adds to the
    report. *)
Definition ok_lines (lower : str → str) (table : list (str * list str))
    (task_name : str) : list str :=
  if suppressed task_name then []
  else if opt_truthy (categorize_items lower table task_name)
       then [condensed_line (_simplify_task_name task_name)]
       else [top_line task_name (u " ✓")].

(** A task that starts and then succeeds, as two calls of the engine. *)
Definition succeeds (task : str * bool * gmap str pyval) : list event :=
  [TaskStart task.1.1 task.1.2; RunnerOk task.2].

(** Two states between which no handler can tell the difference in what
    it writes. *)
Definition same_view (s1 s2 : CallbackModule) : Prop :=
  current_task s1 = current_task s2
  ∧ task_categories s1 = task_categories s2.

(* ===================================================================== *)
(** ** Strings: what the primitives compute *)
(* ===================================================================== *)

Section Strings.

Lemma startswith_prefix (s p : str) : startswith s p = true ↔ p `prefix_of` s.
Proof.
  revert s. induction p as [|c p IH]; intros s; simpl.
  - split; [intros _; apply prefix_nil | done].
  - destruct s as [|d s].
    + split; [done | intros H; by apply prefix_nil_not in H].
    + rewrite andb_true_iff, N.eqb_eq, IH. split.
      * intros [-> H]. by apply prefix_cons.
      * intros H. split; [symmetry; by eapply prefix_cons_inv_1 | by eapply prefix_cons_inv_2].
Qed.

Lemma startswith_false (s p : str) : startswith s p = false ↔ ¬ p `prefix_of` s.
Proof. rewrite <- startswith_prefix. destruct (startswith s p); naive_solver. Qed.

Lemma str_in_substring (a b : str) : str_in a b = true ↔ substring a b.
Proof.
  induction b as [|c b IH]; simpl.
  - rewrite orb_false_r, startswith_prefix. split.
    + intros [k ->]. by exists [], k.
    + intros (l1 & l2 & H). symmetry in H.
      apply app_eq_nil in H as [-> H]. apply app_eq_nil in H as [-> _].
      apply prefix_nil.
  - rewrite orb_true_iff, startswith_prefix, IH. split.
    + intros [[k ->] | (l1 & l2 & ->)].
      * by exists [], k.
      * by exists (c :: l1), l2.
    + intros (l1 & l2 & H). destruct l1 as [|d l1]; simpl in H.
      * left. by exists l2.
      * right. injection H as _ ->. by exists l1, l2.
Qed.

Lemma str_in_false (a b : str) : str_in a b = false ↔ ¬ substring a b.
Proof. rewrite <- str_in_substring. destruct (str_in a b); naive_solver. Qed.

Lemma str_truthy_nonempty (s : str) : str_truthy s = true ↔ s ≠ [].
Proof. destruct s; simpl; naive_solver. Qed.

Lemma str_mul_char (c : char) (n : Z) :
  str_mul [c] n = replicate (Z.to_nat n) c.
Proof.
  unfold str_mul. induction (Z.to_nat n) as [|k IH]; simpl; [done | by rewrite IH].
Qed.

Lemma dots_fill (W L : Z) :
  str_mul (u ".") (W - L) = replicate (fill_count W L) dot.
Proof.
  change (u ".") with [dot]. rewrite str_mul_char. unfold fill_count.
  f_equal. lia.
Qed.

Lemma slice_from_app (p r : str) : slice_from (p ++ r) (len p) = r.
Proof.
  unfold slice_from, slice_index, len. rewrite length_app.
  destruct (Z.ltb_spec (Z.of_nat (length p)) 0); [lia |].
  replace (Z.to_nat _) with (length p) by lia.
  by rewrite drop_app_length.
Qed.

End Strings.

(* ===================================================================== *)
(** ** The task categorizer *)
(* ===================================================================== *)

Section Categorizer.

Variable lower : str → str.

Lemma first_hit_unique {A} (P : A → Prop) (b b' a a' : list A) (x x' : A) :
  b ++ x :: a = b' ++ x' :: a' →
  P x → P x' → Forall (λ y, ¬ P y) b → Forall (λ y, ¬ P y) b' →
  x = x'.
Proof.
  revert b'. induction b as [|y b IH]; intros [|y' b'] E Hx Hx' Hb Hb';
    simpl in E.
  - congruence.
  - injection E as -> _. by apply Forall_cons_1 in Hb' as [? _].
  - injection E as <- _. by apply Forall_cons_1 in Hb as [? _].
  - injection E as _ E. apply Forall_cons_1 in Hb as [_ Hb].
    apply Forall_cons_1 in Hb' as [_ Hb']. eauto.
Qed.

Lemma categorize_patterns_Some (c : str) (ps : list str) (n c' : str) :
  categorize_patterns lower c ps n = Some c' →
  c' = c ∧ ∃ b p a, ps = b ++ p :: a
    ∧ pattern_matches lower p n = true
    ∧ Forall (λ q, pattern_matches lower q n = false) b.
Proof.
  induction ps as [|p ps IH]; simpl; [done |].
  destruct (pattern_matches lower p n) eqn:E.
  - intros [= <-]. split; [done |]. by exists [], p, ps.
  - intros H. destruct (IH H) as (-> & b & q & a & -> & Hq & Hb).
    split; [done |]. exists (p :: b), q, a. repeat split; [done |].
    by constructor.
Qed.

Lemma categorize_patterns_None (c : str) (ps : list str) (n : str) :
  categorize_patterns lower c ps n = None →
  Forall (λ q, pattern_matches lower q n = false) ps.
Proof.
  induction ps as [|p ps IH]; simpl; [constructor |].
  destruct (pattern_matches lower p n) eqn:E; [done |].
  intros H. constructor; auto.
Qed.

Lemma categorize_items_Some (t : list (str * list str)) (n c : str) :
  categorize_items lower t n = Some c →
  ∃ b p a, declared t = b ++ (c, p) :: a
    ∧ pattern_matches lower p n = true
    ∧ Forall (λ cp, pattern_matches lower cp.2 n = false) b.
Proof.
  induction t as [|[c0 ps] t IH]; simpl; [done |].
  destruct (categorize_patterns lower c0 ps n) as [c'|] eqn:E.
  - intros [= ->]. apply categorize_patterns_Some in E
      as (-> & b & p & a & -> & Hp & Hb).
    exists (map (pair c0) b), p, (map (pair c0) a ++ declared t).
    repeat split; [| done |].
    + by rewrite map_app, <- app_assoc.
    + apply Forall_map. by eapply Forall_impl.
  - intros H. destruct (IH H) as (b & p & a & Hd & Hp & Hb).
    exists (map (pair c0) ps ++ b), p, a. repeat split; [| done |].
    + by rewrite Hd, <- app_assoc.
    + apply Forall_app. split; [| done].
      apply Forall_map. apply categorize_patterns_None in E.
      by eapply Forall_impl.
Qed.

Lemma categorize_items_None (t : list (str * list str)) (n : str) :
  categorize_items lower t n = None →
  Forall (λ cp, pattern_matches lower cp.2 n = false) (declared t).
Proof.
  induction t as [|[c0 ps] t IH]; simpl; [constructor |].
  destruct (categorize_patterns lower c0 ps n) as [c'|] eqn:E; [done |].
  intros H. apply Forall_app. split; [| auto].
  apply Forall_map. apply categorize_patterns_None in E.
  by eapply Forall_impl.
Qed.


(** For a pattern written [.*text.*] the inner text is what the slice
    [pattern[2:-2]] yields. *)
Lemma wildcard_inner (text : str) :
  slice (u ".*" ++ text ++ u ".*") 2 (-2) = text.
Proof.
  unfold slice, slice_index, len. rewrite !length_app.
  change (length (u ".*")) with 2%nat.
  destruct (Z.ltb_spec 2 0); [lia |]. destruct (Z.ltb_spec (-2) 0); [| lia].
  replace (Z.to_nat (Z.max 0 (Z.min _ 2))) with 2%nat by lia.
  change (drop 2 (u ".*" ++ text ++ u ".*")) with (text ++ u ".*").
  replace (Z.to_nat _) with (length text) by lia.
  by rewrite take_app_length.
Qed.

(** A pattern written [.*text.*] does match every name that holds
    [text], whatever its case. *)
Lemma wildcard_shaped_matches_inner (text n : str) :
  ci_substring lower text n →
  pattern_matches lower (u ".*" ++ text ++ u ".*") n = true.
Proof.
  intros H. unfold pattern_matches. rewrite wildcard_inner.
  apply str_in_substring in H. rewrite H.
  assert (startswith (u ".*" ++ text ++ u ".*") (u ".*") = true) as ->
    by (apply startswith_prefix; by eexists).
  assert (endswith (u ".*" ++ text ++ u ".*") (u ".*") = true) as ->.
  { unfold endswith. apply startswith_prefix.
    rewrite !rev_app_distr, <- app_assoc. by eexists. }
  apply orb_true_r.
Qed.



End Categorizer.

(* ===================================================================== *)
(** ** The name simplifier *)
(* ===================================================================== *)

Section Simplifier.

Lemma agree_common (a b x y : str) : a ++ x = b ++ y → agree a b = true.
Proof.
  revert b. induction a as [|c a IH]; intros [|d b] E; simpl; try done.
  simpl in E. injection E as -> E. rewrite N.eqb_refl. simpl. eauto.
Qed.

Lemma no_overlap_tail (p t l m : str) :
  no_overlap p t = true → p = l ++ m → m ≠ [] → agree m t = false.
Proof.
  revert p. induction l as [|c l IH]; intros p H -> Hm; simpl in *.
  - destruct m as [|d m]; [done |]. simpl in H.
    apply andb_true_iff in H as [H _]. by apply negb_true_iff in H.
  - apply andb_true_iff in H as [_ H]. eauto.
Qed.

(** Cutting a prefix [p] off a name keeps every occurrence of [t] when
    no occurrence of [t] can start inside [p]. *)
Lemma cut_keeps_substring (p t r : str) :
  no_overlap p t = true → substring t (p ++ r) → substring t r.
Proof.
  intros Hno (l1 & l2 & E). symmetry in E.
  apply app_eq_app in E as [m [[-> ->] | [-> E]]].
  - by exists m, l2.
  - destruct m as [|c m].
    + simpl in E. rewrite app_nil_r in Hno. by exists [], l2.
    + assert (agree (c :: m) t = false) as Hag
        by (by eapply no_overlap_tail).
      symmetry in E. apply agree_common in E. congruence.
Qed.

Lemma strip_prefix_keeps (table : list (str * str)) (t x : str) :
  Forall (λ pr, no_overlap pr.1 t = true) table →
  substring t x → substring t (strip_prefix table x).
Proof.
  induction table as [|[p r] table IH]; simpl; [done |].
  intros Hall Hx. apply Forall_cons_1 in Hall as [Hp Hall].
  destruct (startswith x p) eqn:E; [| auto].
  apply startswith_prefix in E as [k ->]. rewrite slice_from_app.
  by eapply cut_keeps_substring.
Qed.

Lemma strip_prefix_suffix (table : list (str * str)) (x : str) :
  strip_prefix table x `suffix_of` x.
Proof.
  induction table as [|[p r] table IH]; simpl; [done |].
  destruct (startswith x p) eqn:E; [| done].
  apply startswith_prefix in E as [k ->]. rewrite slice_from_app.
  by apply suffix_app_r.
Qed.

Lemma substring_suffix (t w x : str) :
  w `suffix_of` x → substring t w → substring t x.
Proof.
  intros [k ->] (l1 & l2 & ->). exists (k ++ l1), l2. by rewrite <- app_assoc.
Qed.

(** The working name is the task name without the first prefix of the
    table that it starts with, or the task name itself when it starts
    with none. *)
Lemma strip_prefix_first (table : list (str * str)) (x : str) :
  (∃ b p r a, table = b ++ (p, r) :: a
      ∧ x = p ++ strip_prefix table x
      ∧ Forall (λ q, ¬ q.1 `prefix_of` x) b)
  ∨ (strip_prefix table x = x ∧ Forall (λ q, ¬ q.1 `prefix_of` x) table).
Proof.
  induction table as [|[p r] table IH]; simpl.
  - right. by split.
  - destruct (startswith x p) eqn:E.
    + left. apply startswith_prefix in E as [k ->].
      exists [], p, r, table. by rewrite slice_from_app.
    + apply startswith_false in E.
      destruct IH as [(b & q & r' & a & -> & Hx & Hb) | [Hx Hall]].
      * left. exists ((p, r) :: b), q, r', a. repeat split; [done |].
        by constructor.
      * right. split; [done |]. by constructor.
Qed.

(** Every occurrence of a trigger in the task name survives the removal
    of the prefix when it cannot start inside any prefix of the table, so
    the trigger occurs in the working name exactly when it occurs in the
    task name. *)
Lemma trigger_in_working_name (t x : str) :
  Forall (λ pr, no_overlap pr.1 t = true) simplifications →
  substring t (strip_prefix simplifications x) ↔ substring t x.
Proof.
  intros Ht. split.
  - apply substring_suffix, strip_prefix_suffix.
  - by apply strip_prefix_keeps.
Qed.

Lemma base_trigger_clear :
  Forall (λ pr, no_overlap pr.1 (u "base system packages") = true)
         simplifications.
Proof. repeat constructor. Qed.

Lemma global_trigger_clear :
  Forall (λ pr, no_overlap pr.1 (u "global npm packages") = true)
         simplifications.
Proof. repeat constructor. Qed.

Lemma additional_trigger_clear :
  Forall (λ pr, no_overlap pr.1 (u "additional APT packages") = true)
         simplifications.
Proof. repeat constructor. Qed.

(** C10. [_simplify_task_name] puts at most one override label in
    place of the working name, that is, the name after the removal of
    the prefix: the label of 'base system packages' when that trigger
    occurs in the working name, otherwise the label of 'global npm
    packages' when that one occurs, otherwise the label of 'additional
    APT packages' when that one occurs, and the working name itself
    when none occurs. *)
Theorem simplify_override_priority (x : str) :
  let w := strip_prefix simplifications x in
  (substring (u "base system packages") w →
     _simplify_task_name x = u "Base packages (25)")
  ∧ (¬ substring (u "base system packages") w →
     substring (u "global npm packages") w →
     _simplify_task_name x = u "Global packages (5)")
  ∧ (¬ substring (u "base system packages") w →
     ¬ substring (u "global npm packages") w →
     substring (u "additional APT packages") w →
     _simplify_task_name x = u "Additional packages")
  ∧ (¬ substring (u "base system packages") w →
     ¬ substring (u "global npm packages") w →
     ¬ substring (u "additional APT packages") w →
     _simplify_task_name x = w).
Proof.
  intros w. unfold _simplify_task_name. fold w.
  repeat split; intros;
    repeat match goal with
    | H : substring _ _ |- _ => apply str_in_substring in H; rewrite H
    | H : ¬ substring _ _ |- _ => apply str_in_false in H; rewrite H
    end; done.
Qed.

(** C6, as the code has it.  A name that contains 'global npm packages'
    and does not contain 'base system packages' is simplified to
    exactly "Global packages (5)", whatever else surrounds the
    trigger. *)
Theorem simplify_global_packages (x : str) :
  substring (u "global npm packages") x →
  ¬ substring (u "base system packages") x →
  _simplify_task_name x = u "Global packages (5)".
Proof.
  intros Hg Hb. unfold _simplify_task_name.
  apply (trigger_in_working_name _ x global_trigger_clear) in Hg.
  rewrite <- (trigger_in_working_name _ x base_trigger_clear) in Hb.
  apply str_in_substring in Hg. apply str_in_false in Hb.
  by rewrite Hb, Hg.
Qed.

Lemma simplify_global_packages_witness :
  _simplify_task_name (u "Install global npm packages")
  = u "Global packages (5)".
Proof.
  apply simplify_global_packages.
  - apply str_in_substring. vm_compute. reflexivity.
  - apply str_in_false. vm_compute. reflexivity.
Defined.

(** C6 does not hold as stated: a name that contains both triggers gets
    the label of 'base system packages'. *)
Lemma simplify_global_packages_counterexample :
  let x := u "Install base system packages and global npm packages" in
  substring (u "global npm packages") x
  ∧ _simplify_task_name x = u "Base packages (25)"
  ∧ _simplify_task_name x ≠ u "Global packages (5)".
Proof.
  intros x. split; [| split].
  - apply str_in_substring. vm_compute. reflexivity.
  - vm_compute. reflexivity.
  - vm_compute. discriminate.
Qed.

Lemma simplify_override_priority_witness :
  _simplify_task_name
    (u "Install additional APT packages, global npm packages and base system packages")
  = u "Base packages (25)".
Proof.
  apply (proj1 (simplify_override_priority _)).
  apply str_in_substring. vm_compute. reflexivity.
Defined.

End Simplifier.

(* ===================================================================== *)
(** ** The terminal: overwriting a line in place *)
(* ===================================================================== *)

Section Terminal.

Lemma print_app (t : terminal) (a b : str) :
  print t (a ++ b) = print (print t a) b.
Proof. apply foldl_app. Qed.

(** Printing characters that occupy a cell overwrites the cells from the
    cursor on and leaves the rest of the line as it was. *)
Lemma print_printable (s : str) (t : terminal) :
  Forall printable s →
  (column t ≤ length (line t))%nat →
  print t s =
    {| finished := finished t;
       line := take (column t) (line t) ++ s
               ++ drop (column t + length s) (line t);
       column := column t + length s |}.
Proof.
  intros Hs. revert t. induction Hs as [|c s [Hcr Hlf] Hs IH]; intros [f l k] Hk;
    simpl in *.
  - by rewrite Nat.add_0_r, take_drop.
  - assert (put {| finished := f; line := l; column := k |} c
            = {| finished := f; line := take k l ++ c :: drop (S k) l;
                 column := S k |}) as ->.
    { unfold put. apply N.eqb_neq in Hcr, Hlf. by rewrite Hcr, Hlf. }
    assert (length (take k l ++ [c]) = S k) as Hlen
      by (rewrite length_app, length_take; simpl; lia).
    rewrite IH; cbn [finished line column].
    + f_equal; [| lia].
      rewrite cons_middle, (app_assoc (take k l)).
      rewrite take_app_length' by done.
      rewrite (drop_app_add' _ _ (S k)) by done.
      rewrite drop_drop, <- app_assoc. simpl.
      by rewrite Nat.add_succ_r.
    + rewrite length_app, length_take. simpl. rewrite length_drop. lia.
Qed.


End Terminal.

(* ===================================================================== *)
(** ** The event handlers *)
(* ===================================================================== *)

Section Renderer.

Variable lower : str → str.

Lemma init_categories_truthy (n c : str) :
  categorize_items lower init_task_categories n = Some c →
  opt_truthy (Some c) = true.
Proof.
  intros H. apply categorize_items_Some in H as (b & p & a & Hd & _ & _).
  assert (Forall (λ cp : str * str, str_truthy cp.1 = true)
                 (declared init_task_categories)) as Hall
    by repeat constructor.
  rewrite Hd in Hall. apply Forall_app in Hall as [_ Hall].
  by apply Forall_cons_1 in Hall as [Hc _].
Qed.

Lemma not_fact_gathering (n : str) :
  ¬ fact_gathering n → startswith n (u "Gathering Facts") = false.
Proof. intros H. by apply startswith_false. Qed.

Lemma is_fact_gathering (n : str) :
  fact_gathering n → startswith n (u "Gathering Facts") = true.
Proof. intros H. by apply startswith_prefix. Qed.

Lemma nonempty_truthy (n : str) : n ≠ [] → str_truthy n = true.
Proof. by destruct n. Qed.

Lemma dots_printable (k : nat) : Forall printable (replicate k dot).
Proof. apply Forall_replicate. by split. Qed.

(** C8. Every completion line carries exactly [max (W - L) 0] fill dots
    for a display name of length [L]: [W] is 35 and [L] the length of the
    simplified name on the condensed line of runner-ok, [W] is 50 and [L]
    the length of the task name on the top-level lines of runner-ok and
    runner-failed.  The count is never negative, and it is 0 whenever
    [L ≥ W]. *)
Theorem dot_fill_count (self : CallbackModule) (result : gmap str pyval)
    (name : str) :
  current_task self = Some name → name ≠ [] →
  let dots (W L : Z) := replicate (Z.to_nat (Z.max (W - L) 0)) dot in
  let simple_name := _simplify_task_name name in
  (¬ fact_gathering name →
   opt_truthy (_categorize_task lower self name) = true →
   (v2_runner_on_ok lower self result).2 =
     [Write ([CR] ++ u "   │  ├─ " ++ simple_name ++ u " "
             ++ dots 35 (len simple_name) ++ u " ✓" ++ [LF]);
      Flush])
  ∧ (¬ fact_gathering name →
     opt_truthy (_categorize_task lower self name) = false →
     (v2_runner_on_ok lower self result).2 =
       [Write ([CR] ++ u "   ├─ " ++ name ++ u " "
               ++ dots 50 (len name) ++ u " ✓" ++ [LF]);
        Flush])
  ∧ (∃ error_write,
       (v2_runner_on_failed self result false).2 =
         [Write ([CR] ++ u "   ├─ " ++ name ++ u " "
                 ++ dots 50 (len name) ++ u " ✗" ++ [LF]);
          error_write;
          Flush])
  ∧ (∀ W L, Z.of_nat (length (dots W L)) = Z.max (W - L) 0
            ∧ (W <= L → dots W L = []))
  ∧ (∀ W display_name,
       str_mul (u ".") (W - len display_name) = dots W (len display_name)).
Proof.
  intros Hc Hn dots simple_name.
  split; [| split; [| split; [| split]]].
  - intros Hg Hcat. unfold v2_runner_on_ok, _categorize_task in *.
    rewrite Hc, (not_fact_gathering _ Hg), (nonempty_truthy _ Hn).
    cbn [andb negb]. rewrite Hcat. cbn [snd]. by rewrite dots_fill.
  - intros Hg Hcat. unfold v2_runner_on_ok, _categorize_task in *.
    rewrite Hc, (not_fact_gathering _ Hg), (nonempty_truthy _ Hn).
    cbn [andb negb]. rewrite Hcat. cbn [snd]. by rewrite dots_fill.
  - eexists. unfold v2_runner_on_failed.
    rewrite Hc, (nonempty_truthy _ Hn). cbn [andb negb snd].
    by rewrite dots_fill.
  - intros W L. unfold dots. rewrite length_replicate. split; [lia |].
    intros H. by replace (Z.to_nat _) with 0%nat by lia.
  - intros W display_name. apply dots_fill.
Qed.


(** C3, as the code has it.  runner-failed writes nothing exactly when
    there is no current task, the name of the current task is empty, or
    [ignore_errors] is true.  Otherwise it writes a carriage return, the
    top-level prefix, the full task name, the dot-fill to width 50, the
    failure glyph and a line feed, and then the line "   │  └─ Error: "
    with the message of the result: the string under [msg] itself, and
    "Unknown error" when the result has no [msg] entry. *)
Theorem runner_failed_output (self : CallbackModule)
    (result : gmap str pyval) (ignore_errors : bool) :
  let out := (v2_runner_on_failed self result ignore_errors).2 in
  (out = [] ↔ current_task self = None ∨ current_task self = Some []
              ∨ ignore_errors = true)
  ∧ (∀ name, current_task self = Some name → name ≠ [] →
     ignore_errors = false →
     let failure_line :=
       [CR] ++ u "   ├─ " ++ name ++ u " "
       ++ replicate (fill_count 50 (len name)) dot ++ u " ✗" ++ [LF] in
     (result !! u "msg" = None →
        out = [Write failure_line;
               Write (u "   │  └─ Error: Unknown error" ++ [LF]);
               Flush])
     ∧ (∀ message, result !! u "msg" = Some (PyStr message) →
        out = [Write failure_line;
               Write (u "   │  └─ Error: " ++ message ++ [LF]);
               Flush])
     ∧ (∀ v, result !! u "msg" = Some v →
        out = [Write failure_line;
               Write (u "   │  └─ Error: " ++ format v ++ [LF]);
               Flush])).
Proof.
  intros out. unfold out, v2_runner_on_failed. split.
  - destruct (current_task self) as [[|c n]|], ignore_errors;
      cbn [str_truthy andb negb snd]; split; intros H;
      try done; auto; by destruct H as [H | [H | H]].
  - intros name -> Hne ->. rewrite (nonempty_truthy _ Hne).
    cbn [andb negb snd]. rewrite dots_fill. unfold dict_get.
    split; [intros -> | split; [intros message -> | intros v ->]];
      reflexivity.
Qed.

(** C5, as the code has it.  While a task whose name is empty or is a
    fact-gathering name is current, task-start and runner-ok write
    nothing, whatever the result holds; runner-failed writes nothing when
    the name is empty or [ignore_errors] is true. *)
Theorem suppressed_task_is_silent (self : CallbackModule) (name : str)
    (is_conditional : bool) :
  name = [] ∨ fact_gathering name →
  (v2_playbook_on_task_start lower self name is_conditional).2 = []
  ∧ current_task (v2_playbook_on_task_start lower self name is_conditional).1
    = Some name
  ∧ ∀ (self' : CallbackModule) (result : gmap str pyval),
      current_task self' = Some name →
      (v2_runner_on_ok lower self' result).2 = []
      ∧ ∀ ignore_errors, name = [] ∨ ignore_errors = true →
          (v2_runner_on_failed self' result ignore_errors).2 = [].
Proof.
  intros Hname.
  assert (str_truthy name && negb (startswith name (u "Gathering Facts"))
          = false) as Hskip.
  { destruct Hname as [-> | H]; [done |].
    rewrite (is_fact_gathering _ H). apply andb_false_r. }
  assert (startswith name (u "Gathering Facts") || negb (str_truthy name)
          = true) as Hskip'.
  { destruct Hname as [-> | H]; [done |]. by rewrite (is_fact_gathering _ H). }
  unfold v2_playbook_on_task_start, v2_runner_on_ok, v2_runner_on_failed.
  rewrite Hskip'. split; [done |]. split; [done |].
  intros self' result Hcur. rewrite Hcur. split; [by rewrite Hskip |].
  intros ignore_errors [-> | ->]; [done |].
  by rewrite andb_false_r.
Qed.

(** C7, as the code has it.  For a task that the handlers treat as
    categorized (a non-empty name that is not a fact-gathering name and
    that [_categorize_task] maps to a category of the table of
    [__init__]), task-start writes nothing, and the runner-ok that
    follows writes one line: a carriage return, the two-level prefix
    "   │  ├─ ", the simplified name, a space, the dot-fill to width 35,
    a space, the success glyph and a line feed. *)
Theorem categorized_task_line (self : CallbackModule) (name c : str)
    (is_conditional : bool) (result : gmap str pyval) :
  task_categories self = init_task_categories →
  _categorize_task lower self name = Some c →
  name ≠ [] → ¬ fact_gathering name →
  let simple_name := _simplify_task_name name in
  let started := v2_playbook_on_task_start lower self name is_conditional in
  let completed := v2_runner_on_ok lower started.1 result in
  started.2 = []
  ∧ completed.2 =
      [Write ([CR] ++ u "   │  ├─ " ++ simple_name ++ u " "
              ++ replicate (fill_count 35 (len simple_name)) dot
              ++ u " ✓" ++ [LF]);
       Flush].
Proof.
  intros Htable Hcat Hne Hgf simple_name started completed.
  unfold _categorize_task in Hcat.
  assert (opt_truthy (categorize_items lower (task_categories self) name)
          = true) as Hc.
  { rewrite Hcat. rewrite Htable in Hcat. by eapply init_categories_truthy. }
  assert (started = (set_current_task self (Some name), [])) as Hstarted.
  { unfold started, v2_playbook_on_task_start.
    rewrite (not_fact_gathering _ Hgf), (nonempty_truthy _ Hne).
    unfold _categorize_task.
    cbn [task_categories set_current_task orb negb].
    by rewrite Hc. }
  split; [by rewrite Hstarted |].
  unfold completed. rewrite Hstarted. unfold v2_runner_on_ok.
  cbn [fst current_task set_current_task].
  rewrite (not_fact_gathering _ Hgf), (nonempty_truthy _ Hne).
  unfold _categorize_task.
  cbn [task_categories set_current_task andb negb].
  rewrite Hc. cbn [snd]. by rewrite dots_fill.
Qed.

Lemma handle_current_task (self : CallbackModule) (e : event) :
  current_task (handle lower self e).1 =
    match e with
    | TaskStart task_name _ => Some task_name
    | _ => current_task self
    end.
Proof.
  destruct e; cbn [handle]; try done.
  - unfold v2_playbook_on_task_start. by repeat case_match.
  - unfold v2_runner_on_ok. by repeat case_match.
  - unfold v2_runner_on_failed. by repeat case_match.
Qed.

Lemma run_current_task (events : list event) (self : CallbackModule) :
  current_task (run lower self events).1 =
    match last_task_start events with
    | Some n => Some n
    | None => current_task self
    end.
Proof.
  revert self. induction events as [|e events IH]; intros self; [done |].
  cbn [run]. pose proof (handle_current_task self e) as He.
  destruct (handle lower self e) as [self' out] eqn:Eh.
  specialize (IH self').
  destruct (run lower self' events) as [self'' out'] eqn:Er.
  cbn [fst] in *. rewrite IH.
  destruct e; cbn [last_task_start]; rewrite ?He; try done.
  by destruct (last_task_start events).
Qed.

(** C9. After any sequence of handler calls on a fresh plugin,
    [current_task] is the name given by the most recent task-start of
    the sequence, and is unset when there was none: task-start always
    stores its name, and every other handler leaves the attribute as it
    was. *)
Theorem current_task_is_last_task_start :
  (∀ events, current_task (run lower __init__ events).1
             = last_task_start events)
  ∧ (∀ self task_name is_conditional,
       current_task
         (v2_playbook_on_task_start lower self task_name is_conditional).1
       = Some task_name)
  ∧ (∀ self e, (∀ task_name is_conditional,
                  e ≠ TaskStart task_name is_conditional) →
       current_task (handle lower self e).1 = current_task self).
Proof.
  repeat split.
  - intros events. rewrite run_current_task.
    by destruct (last_task_start events).
  - intros self n c. apply (handle_current_task self (TaskStart n c)).
  - intros self e He. rewrite handle_current_task.
    destruct e; try done. by destruct (He task_name is_conditional).
Qed.

End Renderer.

(* ===================================================================== *)
(** ** The handlers on concrete tasks *)
(* ===================================================================== *)

(** The names below are ASCII, on which [str.lower] is [ascii_lower]. *)


(** C4 on the table of [__init__].  The entry 'Change.*shell' neither
    starts nor ends with the marker, so the inner-text branch of the loop
    is never taken for it and it matches only a name that contains the
    marker characters themselves: a task that changes the shell is left
    without a category. *)
Theorem wildcard_entry_matches_literally :
  wildcard_shaped (u "Change.*shell") = false
  ∧ pattern_matches ascii_lower (u "Change.*shell")
      (u "Change user shell to zsh") = false
  ∧ _categorize_task ascii_lower __init__ (u "Change user shell to zsh") = None
  ∧ _categorize_task ascii_lower __init__ (u "Changeshell") = None
  ∧ _categorize_task ascii_lower __init__ (u "Run Change.*shell")
    = Some (u "Final Setup")
  ∧ pattern_matches ascii_lower (u ".*shell.*")
      (u "Change user shell to zsh") = true.
Proof. repeat split; vm_compute; reflexivity. Qed.


Lemma runner_failed_output_witness :
  let self := set_current_task __init__ (Some (u "Configure firewall")) in
  (v2_runner_on_failed self ∅ false).2 =
    [Write ([CR] ++ u "   ├─ Configure firewall ................................ ✗" ++ [LF]);
     Write (u "   │  └─ Error: Unknown error" ++ [LF]);
     Flush]
  ∧ (v2_runner_on_failed self
       {[ u "msg" := PyStr (u "Permission denied") ]} false).2 =
    [Write ([CR] ++ u "   ├─ Configure firewall ................................ ✗" ++ [LF]);
     Write (u "   │  └─ Error: Permission denied" ++ [LF]);
     Flush]
  ∧ (v2_runner_on_failed self ∅ true).2 = [].
Proof.
  intros self.
  assert (u "Configure firewall" ≠ []) as H1 by (vm_compute; discriminate).
  destruct (runner_failed_output self ∅ false) as [_ Hline].
  destruct (runner_failed_output self
              {[ u "msg" := PyStr (u "Permission denied") ]} false)
    as [_ Hmsg].
  destruct (runner_failed_output self ∅ true) as [Hsilent _].
  split; [| split].
  - exact (proj1 (Hline (u "Configure firewall") eq_refl H1 eq_refl) eq_refl).
  - exact (proj1 (proj2 (Hmsg (u "Configure firewall") eq_refl H1 eq_refl))
             (u "Permission denied") (lookup_singleton_eq _ _)).
  - apply Hsilent. right. right. reflexivity.
Defined.

(** C3 does not hold as stated: a current task with an empty name and
    [ignore_errors] false gets no failure block. *)
Lemma runner_failed_output_counterexample :
  let started := v2_playbook_on_task_start ascii_lower __init__ (u "") false in
  current_task started.1 = Some (u "")
  ∧ current_task started.1 ≠ None
  ∧ (v2_runner_on_failed started.1 ∅ false).2 = [].
Proof. intros started. repeat split. discriminate. Qed.


Lemma suppressed_task_is_silent_witness :
  let started :=
    v2_playbook_on_task_start ascii_lower __init__ (u "Gathering Facts") false in
  started.2 = []
  ∧ (v2_runner_on_ok ascii_lower started.1 ∅).2 = []
  ∧ (v2_runner_on_failed started.1 ∅ true).2 = [].
Proof.
  intros started.
  assert (u "Gathering Facts" = [] ∨ fact_gathering (u "Gathering Facts")) as H
    by (right; apply startswith_prefix; vm_compute; reflexivity).
  destruct (suppressed_task_is_silent ascii_lower __init__
              (u "Gathering Facts") false H) as (Ha & Hb & Hc).
  split; [exact Ha |].
  destruct (Hc started.1 ∅ Hb) as [Hok Hfailed].
  split; [exact Hok |]. apply Hfailed. right. reflexivity.
Defined.

(** C5 does not hold as stated: runner-failed has no test for the
    fact-gathering name, and reports its failure like any other. *)
Lemma suppressed_task_is_silent_counterexample :
  let started :=
    v2_playbook_on_task_start ascii_lower __init__ (u "Gathering Facts") false in
  fact_gathering (u "Gathering Facts")
  ∧ current_task started.1 = Some (u "Gathering Facts")
  ∧ (v2_runner_on_failed started.1 ∅ false).2 =
      [Write ([CR] ++ u "   ├─ Gathering Facts ................................... ✗" ++ [LF]);
       Write (u "   │  └─ Error: Unknown error" ++ [LF]);
       Flush]
  ∧ (v2_runner_on_failed started.1 ∅ false).2 ≠ [].
Proof.
  intros started. split; [| split; [| split]].
  - apply startswith_prefix. vm_compute. reflexivity.
  - vm_compute. reflexivity.
  - vm_compute. reflexivity.
  - vm_compute. discriminate.
Qed.

Lemma categorized_task_line_witness :
  let started :=
    v2_playbook_on_task_start ascii_lower __init__ (u "Install NVM") false in
  started.2 = []
  ∧ (v2_runner_on_ok ascii_lower started.1 ∅).2 =
      [Write ([CR] ++ u "   │  ├─ NVM ................................ ✓" ++ [LF]); Flush].
Proof.
  intros started.
  apply (categorized_task_line ascii_lower __init__ (u "Install NVM")
           (u "Development Tools") false ∅).
  - reflexivity.
  - vm_compute. reflexivity.
  - vm_compute. discriminate.
  - apply startswith_false. vm_compute. reflexivity.
Defined.

(** C7 does not hold as stated: the condensed line begins with a carriage
    return, and a categorized name that is a fact-gathering name gets no
    line at all. *)
Lemma categorized_task_line_counterexample :
  let started :=
    v2_playbook_on_task_start ascii_lower __init__ (u "Install NVM") false in
  let suppressed :=
    v2_playbook_on_task_start ascii_lower __init__
      (u "Gathering Facts and permissions") false in
  _categorize_task ascii_lower __init__ (u "Install NVM")
    = Some (u "Development Tools")
  ∧ (v2_runner_on_ok ascii_lower started.1 ∅).2 ≠
      [Write (u "   │  ├─ NVM ................................ ✓" ++ [LF]); Flush]
  ∧ _categorize_task ascii_lower __init__ (u "Gathering Facts and permissions")
    = Some (u "Final Setup")
  ∧ (v2_runner_on_ok ascii_lower suppressed.1 ∅).2 = [].
Proof.
  intros started suppressed. split; [| split; [| split]].
  - vm_compute. reflexivity.
  - vm_compute. discriminate.
  - vm_compute. reflexivity.
  - vm_compute. reflexivity.
Qed.

Lemma dot_fill_count_witness :
  (v2_runner_on_ok ascii_lower
     (set_current_task __init__
        (Some (u "Update apt cache on every container of the network"))) ∅).2
  = [Write ([CR] ++ u "   │  ├─ apt cache on every container of the network  ✓"
            ++ [LF]);
     Flush]
  ∧ (v2_runner_on_ok ascii_lower
       (set_current_task __init__ (Some (u "Configure firewall"))) ∅).2
    = [Write ([CR] ++ u "   ├─ Configure firewall ................................ ✓"
              ++ [LF]);
       Flush].
Proof.
  assert (∀ n : str, startswith n (u "Gathering Facts") = false →
                     ¬ fact_gathering n) as Hgf
    by (intros n H; by apply startswith_false).
  assert (∀ n : str, str_truthy n = true → n ≠ []) as Hne
    by (intros n H; by apply str_truthy_nonempty).
  split.
  - exact (proj1
      (dot_fill_count ascii_lower
         (set_current_task __init__
            (Some (u "Update apt cache on every container of the network")))
         ∅ (u "Update apt cache on every container of the network") eq_refl
         (Hne (u "Update apt cache on every container of the network") eq_refl))
      (Hgf (u "Update apt cache on every container of the network") eq_refl)
      eq_refl).
  - exact (proj1 (proj2
      (dot_fill_count ascii_lower
         (set_current_task __init__ (Some (u "Configure firewall")))
         ∅ (u "Configure firewall") eq_refl
         (Hne (u "Configure firewall") eq_refl)))
      (Hgf (u "Configure firewall") eq_refl) eq_refl).
Defined.

Lemma current_task_is_last_task_start_witness :
  current_task
    (run ascii_lower __init__
       [PlayStart (u "Provision"); TaskStart (u "Set hostname") false;
        RunnerOk ∅; TaskStart (u "Install NVM") false;
        RunnerFailed ∅ false; RunnerSkipped ∅; Stats]).1
  = Some (u "Install NVM")
  ∧ current_task (handle ascii_lower __init__ Stats).1 = None.
Proof.
  split.
  - apply (proj1 (current_task_is_last_task_start ascii_lower)).
  - apply (proj2 (proj2 (current_task_is_last_task_start ascii_lower))).
    intros task_name is_conditional. discriminate.
Defined.

(** Further checks on the names of the provisioning playbook. *)

Example simplify_install_nvm :
  _simplify_task_name (u "Install NVM") = u "NVM".
Proof. vm_compute. reflexivity. Qed.

Example categorize_ignores_case :
  _categorize_task ascii_lower __init__ (u "SET HOSTNAME of the vm")
  = Some (u "System Configuration").
Proof. vm_compute. reflexivity. Qed.

Example categorize_unknown_task :
  _categorize_task ascii_lower __init__ (u "Configure firewall") = None.
Proof. vm_compute. reflexivity. Qed.

(** With the table of [__init__] the task 'Set hostname' is categorized
    and gets the condensed line. *)
Example set_hostname_condensed :
  let started :=
    v2_playbook_on_task_start ascii_lower __init__ (u "Set hostname") false in
  started.2 = []
  ∧ (v2_runner_on_ok ascii_lower started.1 ∅).2 =
      [Write ([CR] ++ u "   │  ├─ hostname ........................... ✓" ++ [LF]); Flush].
Proof. split; vm_compute; reflexivity. Qed.

Example runner_skipped_silent (self : CallbackModule) (result : gmap str pyval) :
  v2_runner_on_skipped self result = (self, []).
Proof. reflexivity. Qed.

(* ===================================================================== *)
(** ** The categorizer on any table *)
(* ===================================================================== *)

Section AnyTable.

Variable lower : str → str.

Lemma categorize_hit (t : list (str * list str)) (n c p : str) :
  (c, p) ∈ declared t → pattern_matches lower p n = true →
  is_Some (categorize_items lower t n).
Proof.
  intros Hin Hp.
  destruct (categorize_items lower t n) as [c'|] eqn:E; [by eexists |].
  apply categorize_items_None in E.
  rewrite Forall_forall in E. specialize (E _ Hin). simpl in E. congruence.
Qed.

(** X1. Whatever the table holds, [_categorize_task] returns the category
    of the first pattern in scan order that passes the test of the loop
    (containment of the lowercased pattern, or of the lowercased inner
    text of a pattern that starts and ends with the marker), and [None]
    exactly when no pattern passes it. *)
Theorem categorize_first_hit (self : CallbackModule) (task_name : str) :
  (∀ c, _categorize_task lower self task_name = Some c ↔
        ∃ before p after,
          declared (task_categories self) = before ++ (c, p) :: after
          ∧ pattern_matches lower p task_name = true
          ∧ Forall (λ cp, pattern_matches lower cp.2 task_name = false) before)
  ∧ (_categorize_task lower self task_name = None ↔
        Forall (λ cp, pattern_matches lower cp.2 task_name = false)
               (declared (task_categories self))).
Proof.
  unfold _categorize_task. set (t := task_categories self).
  assert (HNone : categorize_items lower t task_name = None ↔
    Forall (λ cp, pattern_matches lower cp.2 task_name = false) (declared t)).
  { split; [apply categorize_items_None |]. intros H.
    destruct (categorize_items lower t task_name) as [c|] eqn:E; [| done].
    apply categorize_items_Some in E as (b & p & a & Hd & Hp & _).
    rewrite Hd in H. apply Forall_app in H as [_ H].
    apply Forall_cons_1 in H as [H _]. simpl in H. congruence. }
  split; [| done].
  intros c. split; [apply categorize_items_Some |].
  intros (b & p & a & Hd & Hp & Hb).
  destruct (categorize_items lower t task_name) as [c'|] eqn:E.
  - apply categorize_items_Some in E as (b' & p' & a' & Hd' & Hp' & Hb').
    rewrite Hd in Hd'.
    assert (Forall (λ y : str * str, ¬ pattern_matches lower y.2 task_name = true) b)
      as Hnb by (eapply Forall_impl; [done | simpl; congruence]).
    assert (Forall (λ y : str * str, ¬ pattern_matches lower y.2 task_name = true) b')
      as Hnb' by (eapply Forall_impl; [done | simpl; congruence]).
    pose proof (first_hit_unique
      (λ cp : str * str, pattern_matches lower cp.2 task_name = true)
      _ _ _ _ _ _ Hd' Hp Hp' Hnb Hnb') as [= -> _]. done.
  - apply categorize_items_None in E. rewrite Hd in E.
    apply Forall_app in E as [_ E].
    apply Forall_cons_1 in E as [E _]. simpl in E. congruence.
Qed.

(** X2. Two task names with the same lowercase form get the same
    category: the case of the letters of a name plays no part. *)
Theorem categorize_same_lowercase (self : CallbackModule) (n1 n2 : str) :
  lower n1 = lower n2 →
  _categorize_task lower self n1 = _categorize_task lower self n2.
Proof.
  intros H. unfold _categorize_task.
  induction (task_categories self) as [|[c ps] t IH]; [done |].
  cbn [categorize_items]. rewrite IH.
  replace (categorize_patterns lower c ps n1)
    with (categorize_patterns lower c ps n2); [done |].
  induction ps as [|p ps IHp]; [done |]. cbn [categorize_patterns].
  rewrite IHp. unfold pattern_matches. by rewrite H.
Qed.

(** X3. A pattern written [.*text.*] in any category gives a category to
    every name that holds [text], whatever the case of either. *)
Theorem wildcard_pattern_categorizes (self : CallbackModule)
    (c text task_name : str) :
  (c, u ".*" ++ text ++ u ".*") ∈ declared (task_categories self) →
  ci_substring lower text task_name →
  is_Some (_categorize_task lower self task_name).
Proof.
  intros Hin Ht. eapply categorize_hit; [done |].
  by apply wildcard_shaped_matches_inner.
Qed.

(** X4. When [lower] maps the empty string to itself, an empty pattern
    and the bare marker [.*] match every task name, so a table that holds
    either gives a category to every task. *)
Theorem empty_pattern_matches_all (self : CallbackModule)
    (c p task_name : str) :
  lower [] = [] →
  p = [] ∨ p = u ".*" →
  (c, p) ∈ declared (task_categories self) →
  is_Some (_categorize_task lower self task_name).
Proof.
  intros Hnil Hp Hin. eapply categorize_hit; [done |].
  assert (∀ h, str_in [] h = true) as Hin0 by (by intros [|? ?]).
  unfold pattern_matches. destruct Hp as [-> | ->].
  - by rewrite Hnil, Hin0.
  - change (slice (u ".*") 2 (-2)) with (@nil N).
    rewrite Hnil, Hin0.
    change (startswith (u ".*") (u ".*") && endswith (u ".*") (u ".*"))
      with true.
    apply orb_true_r.
Qed.

(** X5. A name whose lowercase form holds the lowercase form of a
    categorized name is categorized too (an earlier pattern may match
    the longer name, so the category may differ). *)
Theorem categorized_stays_categorized (self : CallbackModule)
    (task_name other : str) :
  substring (lower task_name) (lower other) →
  is_Some (_categorize_task lower self task_name) →
  is_Some (_categorize_task lower self other).
Proof.
  intros (m1 & m2 & Hsub) [c Hc]. unfold _categorize_task in *.
  apply categorize_items_Some in Hc as (b & p & a & Hd & Hp & _).
  assert ((c, p) ∈ declared (task_categories self)) as Hin
    by (rewrite Hd; set_solver).
  eapply categorize_hit; [done |].
  assert (∀ t, str_in t (lower task_name) = true →
               str_in t (lower other) = true) as Hgrow.
  { intros t Ht. apply str_in_substring in Ht as (l1 & l2 & Ht).
    apply str_in_substring. rewrite Hsub, Ht.
    exists (m1 ++ l1), (l2 ++ m2). by rewrite <- !app_assoc. }
  unfold pattern_matches in *.
  apply orb_true_iff in Hp as [Hp | Hp].
  - by rewrite (Hgrow _ Hp).
  - apply andb_true_iff in Hp as [-> Hp]. rewrite (Hgrow _ Hp).
    apply orb_true_r.
Qed.

End AnyTable.

(* ===================================================================== *)
(** ** More on the name simplifier *)
(* ===================================================================== *)

Section SimplifierShape.

(** X6. [_simplify_task_name] returns one of the three override labels,
    or the name unchanged when it starts with no prefix of the table, or
    the name without exactly one prefix: the first one of the table that
    it starts with.  A second prefix behind the first is left in place. *)
Theorem simplify_strips_one_prefix (x : str) :
  _simplify_task_name x ∈
    [u "Base packages (25)"; u "Global packages (5)"; u "Additional packages"]
  ∨ (_simplify_task_name x = x
     ∧ Forall (λ q, ¬ q.1 `prefix_of` x) simplifications)
  ∨ (∃ b p r a, simplifications = b ++ (p, r) :: a
       ∧ x = p ++ _simplify_task_name x
       ∧ Forall (λ q, ¬ q.1 `prefix_of` x) b).
Proof.
  unfold _simplify_task_name.
  destruct (str_in (u "base system packages") _);
    [left; apply list_elem_of_here |].
  destruct (str_in (u "global npm packages") _);
    [left; apply list_elem_of_further, list_elem_of_here |].
  destruct (str_in (u "additional APT packages") _);
    [left; do 2 apply list_elem_of_further; apply list_elem_of_here |].
  right. destruct (strip_prefix_first simplifications x) as [H | H]; auto.
Qed.

Lemma str_in_working_name (t x : str) :
  Forall (λ pr, no_overlap pr.1 t = true) simplifications →
  str_in t (strip_prefix simplifications x) = str_in t x.
Proof.
  intros Ht. apply Bool.eq_true_iff_eq. rewrite !str_in_substring.
  by apply trigger_in_working_name.
Qed.

(** X7. The removal of the prefix neither hides an override trigger nor
    makes one appear: the label is decided by which triggers occur in the
    task name as it was given. *)
Theorem simplify_tests_original (x : str) :
  _simplify_task_name x =
    if str_in (u "base system packages") x then u "Base packages (25)"
    else if str_in (u "global npm packages") x then u "Global packages (5)"
    else if str_in (u "additional APT packages") x then u "Additional packages"
    else strip_prefix simplifications x.
Proof.
  unfold _simplify_task_name.
  by rewrite (str_in_working_name _ x base_trigger_clear),
             (str_in_working_name _ x global_trigger_clear),
             (str_in_working_name _ x additional_trigger_clear).
Qed.

Lemma simplify_length_bound (x : str) :
  len (_simplify_task_name x) <= Z.max (len x) 19.
Proof.
  unfold _simplify_task_name, len.
  destruct (str_in (u "base system packages") _);
    [change (length (u "Base packages (25)")) with 18%nat; lia |].
  destruct (str_in (u "global npm packages") _);
    [change (length (u "Global packages (5)")) with 19%nat; lia |].
  destruct (str_in (u "additional APT packages") _);
    [change (length (u "Additional packages")) with 19%nat; lia |].
  destruct (strip_prefix_suffix simplifications x) as [k Hk].
  rewrite Hk at 2. rewrite length_app. lia.
Qed.

(** X8. The simplified name is never longer than the task name, unless
    it is an override label, and these have at most 19 characters. *)
Theorem simplify_length (x : str) :
  len (_simplify_task_name x) <= Z.max (len x) 19.
Proof. apply simplify_length_bound. Qed.

End SimplifierShape.

(* ===================================================================== *)
(** ** The handlers over a whole run *)
(* ===================================================================== *)

Section WholeRun.

Variable lower : str → str.

Lemma run_cons (self : CallbackModule) (e : event) (events : list event) :
  run lower self (e :: events) =
    ((run lower (handle lower self e).1 events).1,
     (handle lower self e).2 ++ (run lower (handle lower self e).1 events).2).
Proof.
  cbn [run]. destruct (handle lower self e) as [s1 o1]. cbn [fst snd].
  by destruct (run lower s1 events).
Qed.

Lemma run_app (self : CallbackModule) (a b : list event) :
  run lower self (a ++ b) =
    ((run lower (run lower self a).1 b).1,
     (run lower self a).2 ++ (run lower (run lower self a).1 b).2).
Proof.
  revert self. induction a as [|e a IH]; intros self.
  - simpl. by destruct (run lower self b).
  - rewrite <- app_comm_cons, !run_cons, IH. cbn [fst snd].
    by rewrite app_assoc.
Qed.

Lemma handle_frame (self : CallbackModule) (e : event) :
  let self' := (handle lower self e).1 in
  task_categories self' = task_categories self
  ∧ task_status self' = task_status self
  ∧ task_count self' = task_count self
  ∧ total_tasks self' = total_tasks self
  ∧ system_tasks self' = system_tasks self
  ∧ dev_tools_tasks self' = dev_tools_tasks self
  ∧ final_setup_tasks self' = final_setup_tasks self.
Proof.
  destruct e; cbn [handle]; try done.
  - unfold v2_playbook_on_task_start. by repeat case_match.
  - unfold v2_runner_on_ok. by repeat case_match.
  - unfold v2_runner_on_failed. by repeat case_match.
Qed.

(** X9. Over any sequence of calls the handlers change nothing of the
    plugin but [current_task] and [current_play]: the category table is
    the one of the start, and the counters and task lists set up by
    [__init__] are never touched. *)
Theorem run_keeps_attributes (self : CallbackModule) (events : list event) :
  let self' := (run lower self events).1 in
  task_categories self' = task_categories self
  ∧ task_status self' = task_status self
  ∧ task_count self' = task_count self
  ∧ total_tasks self' = total_tasks self
  ∧ system_tasks self' = system_tasks self
  ∧ dev_tools_tasks self' = dev_tools_tasks self
  ∧ final_setup_tasks self' = final_setup_tasks self.
Proof.
  revert self. induction events as [|e events IH]; intros self; [done |].
  rewrite run_cons. cbn [fst].
  destruct (IH (handle lower self e).1) as (-> & -> & -> & -> & -> & -> & ->).
  apply handle_frame.
Qed.

Lemma handle_current_play (self : CallbackModule) (e : event) :
  current_play (handle lower self e).1 =
    match e with
    | PlayStart play_name => Some play_name
    | _ => current_play self
    end.
Proof.
  destruct e; cbn [handle]; try done.
  - unfold v2_playbook_on_task_start. by repeat case_match.
  - unfold v2_runner_on_ok. by repeat case_match.
  - unfold v2_runner_on_failed. by repeat case_match.
Qed.

(** X10. After any sequence of calls [current_play] is the name given by
    the most recent play-start, and what it was before when there was
    none; no task or runner event changes it. *)
Theorem current_play_is_last_play_start (self : CallbackModule)
    (events : list event) :
  current_play (run lower self events).1 =
    match last_play_start events with
    | Some n => Some n
    | None => current_play self
    end.
Proof.
  revert self. induction events as [|e events IH]; intros self; [done |].
  rewrite run_cons. cbn [fst]. rewrite IH, handle_current_play.
  destruct e; cbn [last_play_start]; try done.
  by destruct (last_play_start events).
Qed.

Lemma handle_same_view (s1 s2 : CallbackModule) (e : event) :
  same_view s1 s2 →
  (handle lower s1 e).2 = (handle lower s2 e).2
  ∧ same_view (handle lower s1 e).1 (handle lower s2 e).1.
Proof.
  destruct s1, s2. unfold same_view. cbn [current_task task_categories].
  intros [-> ->].
  destruct e; cbn [handle]; try done.
  - unfold v2_playbook_on_task_start, _categorize_task.
    cbn [set_current_task current_task task_categories].
    by repeat case_match.
  - unfold v2_runner_on_ok, _categorize_task.
    cbn [current_task task_categories].
    by repeat case_match.
  - unfold v2_runner_on_failed. cbn [current_task]. by repeat case_match.
Qed.

Lemma handle_silent (self : CallbackModule) (e : event) :
  silent e = true →
  (handle lower self e).2 = [] ∧ same_view (handle lower self e).1 self.
Proof. by destruct e. Qed.

Lemma run_same_view (events : list event) (s1 s2 : CallbackModule) :
  same_view s1 s2 →
  (run lower s1 events).2
  = (run lower s2 (List.filter (λ e, negb (silent e)) events)).2.
Proof.
  revert s1 s2. induction events as [|e events IH]; intros s1 s2 Hv; [done |].
  rewrite run_cons. cbn [List.filter snd].
  destruct (silent e) eqn:Es; cbn [negb].
  - destruct (handle_silent s1 e Es) as [-> Hs]. cbn [app].
    apply IH. destruct Hs as [? ?], Hv as [? ?]. split; congruence.
  - rewrite run_cons. cbn [snd].
    destruct (handle_same_view s1 s2 e Hv) as [-> Hv']. f_equal. by apply IH.
Qed.

(** X11. Play-start, runner-skipped, stats and display events have no
    influence on the report: a run writes exactly what it writes with
    these events taken out. *)
Theorem silent_events_do_not_matter (self : CallbackModule)
    (events : list event) :
  (run lower self events).2
  = (run lower self (List.filter (λ e, negb (silent e)) events)).2.
Proof. by apply run_same_view. Qed.

(** X12. Nothing is written before the first task-start: on a plugin
    whose [current_task] is unset, as [__init__] leaves it, a sequence
    without a task-start writes nothing, whatever runner events it
    holds. *)
Theorem silent_before_first_task (self : CallbackModule)
    (events : list event) :
  current_task self = None →
  last_task_start events = None →
  (run lower self events).2 = [].
Proof.
  revert self. induction events as [|e events IH]; intros self Hc He; [done |].
  rewrite run_cons. cbn [snd].
  assert (last_task_start events = None ∧ (handle lower self e).2 = []
          ∧ current_task (handle lower self e).1 = None) as (He' & -> & Hc').
  { destruct e; cbn [last_task_start handle] in *;
      try (by repeat split).
    - by destruct (last_task_start events).
    - unfold v2_runner_on_ok. by rewrite Hc.
    - unfold v2_runner_on_failed. by rewrite Hc. }
  by apply IH.
Qed.

End WholeRun.

(* ===================================================================== *)
(** ** The report on the terminal *)
(* ===================================================================== *)

Section ReportOnTerminal.

Variable lower : str → str.

Lemma written_app (a b : list io) : written (a ++ b) = written a ++ written b.
Proof.
  induction a as [|[s|] a IH]; cbn [written app]; [done | | done].
  by rewrite IH, app_assoc.
Qed.

Lemma perform_all_print (l : list io) (o : stream) :
  print (tty (perform_all o l)) (buffer (perform_all o l))
  = print (tty o) (buffer o ++ written l).
Proof.
  revert o. induction l as [|[s|] l IH]; intros o; cbn [perform_all foldl written].
  - by rewrite app_nil_r.
  - fold (perform_all (perform o (Write s)) l). rewrite IH.
    cbn [perform tty buffer]. by rewrite app_assoc.
  - fold (perform_all (perform o Flush) l). rewrite IH.
    cbn [perform tty buffer app]. by rewrite print_app.
Qed.

(** A trace that is empty or ends with a flush leaves nothing in the
    buffer: all its text is on the terminal. *)
Lemma perform_all_flushed (l : list io) (o : stream) :
  l = [] ∨ (∃ l', l = l' ++ [Flush]) →
  buffer o = [] →
  perform_all o l = {| buffer := []; tty := print (tty o) (written l) |}.
Proof.
  intros [-> | [l' ->]] Ho.
  - destruct o as [b t]. simpl in *. by subst.
  - unfold perform_all. rewrite foldl_app. cbn [foldl perform].
    f_equal. fold (perform_all o l'). rewrite perform_all_print, Ho.
    rewrite written_app. cbn [written app]. by rewrite app_nil_r.
Qed.

Lemma handle_flushed (self : CallbackModule) (e : event) :
  (handle lower self e).2 = [] ∨ ∃ l, (handle lower self e).2 = l ++ [Flush].
Proof.
  destruct e; cbn [handle]; try (by left).
  - unfold v2_playbook_on_task_start. repeat case_match; cbn [snd];
      try (by left). right. by eexists [_].
  - unfold v2_runner_on_ok. repeat case_match; cbn [snd];
      try (by left); right; by eexists [_].
  - unfold v2_runner_on_failed. repeat case_match; cbn [snd];
      try (by left). right. by eexists [_; _].
Qed.

Lemma run_flushed (self : CallbackModule) (events : list event) :
  (run lower self events).2 = []
  ∨ ∃ l, (run lower self events).2 = l ++ [Flush].
Proof.
  revert self. induction events as [|e events IH]; intros self; [by left |].
  rewrite run_cons. cbn [snd].
  destruct (IH (handle lower self e).1) as [-> | [l ->]].
  - rewrite app_nil_r. apply handle_flushed.
  - right. eexists. by rewrite app_assoc.
Qed.

(** X13. Every handler that writes ends with a flush, so after any
    sequence of calls the buffer of the stream is empty again and the
    terminal has received all the text written so far, in order. *)
Theorem run_output_reaches_terminal (self : CallbackModule)
    (events : list event) (o : stream) :
  buffer o = [] →
  perform_all o (run lower self events).2
  = {| buffer := [];
       tty := print (tty o) (written (run lower self events).2) |}.
Proof. apply perform_all_flushed, run_flushed. Qed.

Lemma task_start_written (self : CallbackModule) (n : str) (c : bool) :
  (v2_playbook_on_task_start lower self n c).1 = set_current_task self (Some n)
  ∧ written (v2_playbook_on_task_start lower self n c).2 =
      if suppressed n then []
      else if opt_truthy (categorize_items lower (task_categories self) n)
           then []
           else u "   ├─ " ++ n ++ u " ".
Proof.
  unfold v2_playbook_on_task_start, suppressed, _categorize_task.
  cbn [task_categories set_current_task].
  destruct (startswith n (u "Gathering Facts") || negb (str_truthy n));
    [done |].
  destruct (opt_truthy _); [done |].
  cbn [fst snd written]. by rewrite app_nil_r.
Qed.

Lemma runner_ok_written (self : CallbackModule) (n : str)
    (r : gmap str pyval) :
  current_task self = Some n →
  written (v2_runner_on_ok lower self r).2 =
    if suppressed n then []
    else if opt_truthy (categorize_items lower (task_categories self) n)
         then [CR] ++ condensed_line (_simplify_task_name n) ++ [LF]
         else [CR] ++ top_line n (u " ✓") ++ [LF].
Proof.
  intros Hc. unfold v2_runner_on_ok, suppressed, _categorize_task.
  rewrite Hc.
  destruct (startswith n (u "Gathering Facts")), (str_truthy n);
    cbn [andb orb negb snd written]; try done.
  destruct (opt_truthy _); cbn [snd written]; rewrite dots_fill, app_nil_r;
    unfold condensed_line, top_line; by rewrite <- !app_assoc.
Qed.


Lemma printable_check (s : str) :
  forallb (λ c, negb (c =? CR)%N && negb (c =? LF)%N) s = true →
  Forall printable s.
Proof.
  intros H. apply Forall_forall. intros c Hc.
  apply list_elem_of_In in Hc.
  rewrite forallb_forall in H. specialize (H c Hc).
  apply andb_true_iff in H as [H1 H2].
  apply negb_true_iff, N.eqb_neq in H1, H2. by split.
Qed.

Lemma top_line_printable (n glyph : str) :
  Forall printable n → Forall printable glyph →
  Forall printable (top_line n glyph).
Proof.
  intros Hn Hg. unfold top_line. rewrite !Forall_app.
  split; [by apply printable_check |]. split; [done |].
  split; [by apply printable_check |]. split; [apply dots_printable | done].
Qed.

Lemma simplify_printable (x : str) :
  Forall printable x → Forall printable (_simplify_task_name x).
Proof.
  intros Hx. unfold _simplify_task_name.
  destruct (str_in (u "base system packages") _);
    [by apply printable_check |].
  destruct (str_in (u "global npm packages") _);
    [by apply printable_check |].
  destruct (str_in (u "additional APT packages") _);
    [by apply printable_check |].
  destruct (strip_prefix_suffix simplifications x) as [k Hk].
  rewrite Hk in Hx. by apply Forall_app in Hx as [_ ?].
Qed.

Lemma condensed_line_printable (n : str) :
  Forall printable n → Forall printable (condensed_line n).
Proof.
  intros Hn. unfold condensed_line. rewrite !Forall_app.
  split; [by apply printable_check |]. split; [done |].
  split; [by apply printable_check |].
  split; [apply dots_printable | by apply printable_check].
Qed.

(** What a carriage return, a new line and a line feed make of a line
    that already holds [old]: the new line, followed by whatever of
    [old] reaches beyond its end. *)
Lemma overwrite_line (above : list str) (old new : str) :
  Forall printable old → Forall printable new →
  print (print {| finished := above; line := []; column := 0 |} old)
        ([CR] ++ new ++ [LF])
  = {| finished := above ++ [new ++ drop (length new) old];
       line := []; column := 0 |}.
Proof.
  intros Ho Hn.
  rewrite (print_printable old) by first [ done | simpl; lia ].
  do 2 rewrite print_app. cbn [finished line column take drop app Nat.add].
  change (print ?t [CR]) with (put t CR). unfold put at 1.
  cbn [finished line column N.eqb CR LF Pos.eqb].
  rewrite (print_printable new) by first [ done | simpl; lia ].
  cbn [finished line column take drop app Nat.add].
  change (print ?t [LF]) with (put t LF). unfold put.
  cbn [finished line column N.eqb CR LF Pos.eqb].
  by rewrite drop_nil, app_nil_r.
Qed.


Lemma placeholder_length (n : str) :
  length (u "   ├─ " ++ n ++ u " ") = (length n + 7)%nat.
Proof.
  rewrite !length_app.
  change (length (u "   ├─ ")) with 6%nat. change (length (u " ")) with 1%nat.
  lia.
Qed.

Lemma top_line_length (n glyph : str) :
  length (top_line n glyph)
  = (length n + 7 + fill_count 50 (len n) + length glyph)%nat.
Proof.
  unfold top_line. rewrite !length_app, length_replicate.
  change (length (u "   ├─ ")) with 6%nat. change (length (u " ")) with 1%nat.
  unfold char. lia.
Qed.

Lemma run_table (self : CallbackModule) (events : list event) :
  task_categories (run lower self events).1 = task_categories self.
Proof.
  revert self. induction events as [|e events IH]; intros self; [done |].
  rewrite run_cons. cbn [fst]. rewrite IH. apply handle_frame.
Qed.

Lemma not_suppressed (n : str) :
  n ≠ [] → ¬ fact_gathering n → suppressed n = false.
Proof.
  intros Hn Hg. unfold suppressed.
  by rewrite (not_fact_gathering _ Hg), (nonempty_truthy _ Hn).
Qed.

(** X14. The line that runner-ok writes is never cut short: with its
    carriage return and line feed it has [14 + max (len simple_name) 35]
    characters for a categorized task and [11 + max (len name) 50] for
    any other.  So the glyphs stand in one column, 49 and 61 characters
    wide, for every name of at most 35 characters, and a longer name
    pushes its glyph to the right. *)
Theorem ok_line_width (self : CallbackModule) (name : str)
    (result : gmap str pyval) :
  current_task self = Some name →
  name ≠ [] → ¬ fact_gathering name →
  let w := written (v2_runner_on_ok lower self result).2 in
  let categorized := opt_truthy (_categorize_task lower self name) in
  len w = (if categorized
           then 14 + Z.max (len (_simplify_task_name name)) 35
           else 11 + Z.max (len name) 50)
  ∧ (len name <= 35 → len w = if categorized then 49 else 61).
Proof.
  intros Hc Hn Hg w categorized.
  assert (len w = (if categorized
                   then 14 + Z.max (len (_simplify_task_name name)) 35
                   else 11 + Z.max (len name) 50)) as Hw.
  { unfold w, categorized, _categorize_task.
    rewrite (runner_ok_written _ _ _ Hc), (not_suppressed _ Hn Hg).
    destruct (opt_truthy _); unfold len, condensed_line, top_line;
      rewrite !length_app, length_replicate;
      cbn [length]; unfold fill_count, len, char.
    - change (length (u "   │  ├─ ")) with 9%nat.
      change (length (u " ")) with 1%nat.
      change (length (u " ✓")) with 2%nat. lia.
    - change (length (u "   ├─ ")) with 6%nat.
      change (length (u " ")) with 1%nat.
      change (length (u " ✓")) with 2%nat. lia. }
  split; [done |]. intros Hshort. rewrite Hw.
  pose proof (simplify_length_bound name).
  destruct categorized; lia.
Qed.


Lemma task_printed (self : CallbackModule) (above : list str)
    (t : str * bool * gmap str pyval) :
  Forall printable t.1.1 →
  print {| finished := above; line := []; column := 0 |}
        (written (run lower self (succeeds t)).2)
  = {| finished := above ++ ok_lines lower (task_categories self) t.1.1;
       line := []; column := 0 |}.
Proof.
  destruct t as [[n c] r]. cbn [fst snd]. intros Hp. unfold succeeds.
  cbn [fst snd]. rewrite !run_cons. cbn [run handle fst snd].
  rewrite app_nil_r, written_app.
  destruct (task_start_written self n c) as [-> ->].
  rewrite (runner_ok_written _ n) by done.
  cbn [task_categories set_current_task]. unfold ok_lines.
  destruct (suppressed n); [by rewrite !app_nil_r |].
  destruct (opt_truthy _).
  - cbn [app]. change (CR :: ?l) with ([CR] ++ l).
    rewrite (overwrite_line above [])
      by first [ done | by apply condensed_line_printable, simplify_printable ].
    by rewrite drop_nil, app_nil_r.
  - rewrite print_app.
    assert (Forall printable (u "   ├─ " ++ n ++ u " ")) as Hph
      by (rewrite !Forall_app; repeat split; [| done |];
          by apply printable_check).
    rewrite overwrite_line
      by first [ done | apply top_line_printable;
                        [done | by apply printable_check] ].
    rewrite drop_ge, app_nil_r; [done |].
    rewrite placeholder_length, top_line_length. lia.
Qed.

Lemma tasks_printed (tasks : list (str * bool * gmap str pyval))
    (self : CallbackModule) (above : list str) :
  Forall (λ t, Forall printable t.1.1) tasks →
  print {| finished := above; line := []; column := 0 |}
        (written (run lower self (flat_map succeeds tasks)).2)
  = {| finished :=
         above ++ flat_map (λ t, ok_lines lower (task_categories self) t.1.1)
                           tasks;
       line := []; column := 0 |}.
Proof.
  revert self above. induction tasks as [|t tasks IH]; intros self above Hp.
  - simpl. by rewrite app_nil_r.
  - apply Forall_cons_1 in Hp as [Ht Hp]. cbn [flat_map].
    rewrite run_app. cbn [snd]. rewrite written_app, print_app.
    rewrite task_printed by done. rewrite IH by done.
    by rewrite run_table, app_assoc.
Qed.

(** X16. A run in which every task starts and then succeeds leaves one
    finished line per task on the terminal, in order: the condensed line
    for a categorized task, the top-level line, which replaces the
    placeholder, for any other, and no line for a task with an empty or
    fact-gathering name.  The cursor is back at the start of an empty
    line.  The names are made of characters that occupy a cell. *)
Theorem successful_run_report (tasks : list (str * bool * gmap str pyval))
    (self : CallbackModule) (above : list str) :
  Forall (λ t, Forall printable t.1.1) tasks →
  perform_all (at_line_start above)
    (run lower self (flat_map succeeds tasks)).2
  = at_line_start
      (above ++ flat_map (λ t, ok_lines lower (task_categories self) t.1.1)
                         tasks).
Proof.
  intros Hp.
  rewrite (perform_all_flushed _ _ (run_flushed _ _)) by done.
  unfold at_line_start. f_equal. cbn [tty]. by apply tasks_printed.
Qed.


End ReportOnTerminal.

(* ===================================================================== *)
(** ** Whole runs on concrete tasks *)
(* ===================================================================== *)

Lemma categorize_same_lowercase_witness :
  _categorize_task ascii_lower __init__ (u "SET HOSTNAME")
  = _categorize_task ascii_lower __init__ (u "set hostname").
Proof.
  apply (categorize_same_lowercase ascii_lower __init__).
  vm_compute. reflexivity.
Defined.

Lemma wildcard_pattern_categorizes_witness :
  is_Some
    (_categorize_task ascii_lower
       (set_task_categories __init__ [(u "Final Setup", [u ".*shell.*"])])
       (u "Change user shell to zsh")).
Proof.
  apply (wildcard_pattern_categorizes ascii_lower _ (u "Final Setup") (u "shell")).
  - vm_compute. apply list_elem_of_here.
  - apply str_in_substring. vm_compute. reflexivity.
Defined.

Lemma empty_pattern_matches_all_witness :
  is_Some
    (_categorize_task ascii_lower
       (set_task_categories __init__ [(u "Everything", [u ".*"])])
       (u "Configure firewall")).
Proof.
  apply (empty_pattern_matches_all ascii_lower _ (u "Everything") (u ".*")).
  - reflexivity.
  - right. reflexivity.
  - vm_compute. apply list_elem_of_here.
Defined.

Lemma categorized_stays_categorized_witness :
  is_Some
    (_categorize_task ascii_lower __init__
       (u "Retry: Install NVM (second attempt)")).
Proof.
  apply (categorized_stays_categorized ascii_lower __init__ (u "INSTALL NVM")).
  - apply str_in_substring. vm_compute. reflexivity.
  - exists (u "Development Tools"). vm_compute. reflexivity.
Defined.

Lemma silent_before_first_task_witness :
  (run ascii_lower __init__
     [PlayStart (u "Provision"); RunnerOk ∅; RunnerFailed ∅ false;
      RunnerSkipped ∅; Stats]).2 = [].
Proof.
  apply (silent_before_first_task ascii_lower __init__); reflexivity.
Defined.

Lemma run_output_reaches_terminal_witness :
  buffer
    (perform_all (at_line_start [])
       (run ascii_lower __init__
          [TaskStart (u "Configure firewall") false; RunnerSkipped ∅]).2)
  = [].
Proof.
  rewrite (run_output_reaches_terminal ascii_lower __init__ _ (at_line_start []));
    reflexivity.
Defined.

Lemma ok_line_width_witness :
  len (written
         (v2_runner_on_ok ascii_lower
            (set_current_task __init__ (Some (u "Install NVM"))) ∅).2) = 49
  ∧ len (written
           (v2_runner_on_ok ascii_lower
              (set_current_task __init__ (Some (u "Configure firewall"))) ∅).2)
    = 61.
Proof.
  assert (∀ n : str, startswith n (u "Gathering Facts") = false →
                     ¬ fact_gathering n) as Hgf
    by (intros n H; by apply startswith_false).
  assert (∀ n : str, str_truthy n = true → n ≠ []) as Hne
    by (intros n H; by apply str_truthy_nonempty).
  split.
  - refine (proj2 (ok_line_width ascii_lower
                     (set_current_task __init__ (Some (u "Install NVM")))
                     (u "Install NVM") ∅ eq_refl
                     (Hne (u "Install NVM") eq_refl)
                     (Hgf (u "Install NVM") eq_refl)) _).
    vm_compute. discriminate.
  - refine (proj2 (ok_line_width ascii_lower
                     (set_current_task __init__ (Some (u "Configure firewall")))
                     (u "Configure firewall") ∅ eq_refl
                     (Hne (u "Configure firewall") eq_refl)
                     (Hgf (u "Configure firewall") eq_refl)) _).
    vm_compute. discriminate.
Defined.


Lemma successful_run_report_witness :
  perform_all (at_line_start [])
    (run ascii_lower __init__
       (flat_map succeeds
          [(u "Gathering Facts", false, ∅);
           (u "Install NVM", false, ∅);
           (u "Configure firewall", true, ∅)])).2
  = at_line_start [u "   │  ├─ NVM ................................ ✓"; u "   ├─ Configure firewall ................................ ✓"].
Proof.
  etrans;
    [apply (successful_run_report ascii_lower
              [(u "Gathering Facts", false, ∅);
               (u "Install NVM", false, ∅);
               (u "Configure firewall", true, ∅)] __init__ [])
    | vm_compute; reflexivity].
  repeat (apply Forall_cons_2;
            [apply printable_check; vm_compute; reflexivity |]).
  apply Forall_nil_2.
Defined.

